(** * TransportConnection: connection orchestration of the tunnel client

    A shallow embedding of [src/src/transport_connection.cpp].

    The C++ class [TransportConnection] sequences candidate filtering, an
    optional pre-handshake, the transport connect, the local proxy start,
    the activation of the system proxy settings, an optional post-handshake
    and the teardown.  The embedding follows the code statement by
    statement:

    - the object's members, the caller's [io_serverEntries] vector (passed
      by reference and modified in place) and the local vector
      [sessionInfoCandidates] live in an explicit [Machine] state;
    - every call on a collaborator (transport, local proxy, system proxy
      settings, server request, Win32) appends an [Event] to a trace, so
      that ordering properties can be stated;
    - C++ exceptions are the [Raised] outcome of a small state-and-error
      monad; reading the front of an empty vector, indexing out of range
      and dereferencing a null member are the [Undefined] outcome;
    - [assert] is compiled out (release build): the code itself says that
      it enforces its rules "even though we've done those debug checks";
    - [my_print] logging has no effect on the state and is left out;
    - the calls whose failure the code looks at can fail in the model:
      [DeleteFile], [ServerRequest::MakeRequest] (returns [false] or
      throws), [ParseHandshakeResponse], the transport's [Connect] (throws)
      and [LocalProxy::Start] (returns [false] or throws).  The [void]
      calls ([Reset], [Apply], [Revert], [Stop], [Cleanup],
      [UpdateSessionInfo], [delete]) return normally. *)

From Stdlib Require Import ZArith.
From stdpp Require Import base list strings.

Local Open Scope Z_scope.
Local Open Scope nat_scope.

(** ** Data model *)

(** Modelled from the spec: the declaration of [ServerEntry] is in a header
    outside [transport_connection.cpp]; the spec describes it as a
    descriptor with a network address, a per-relay secret and capability
    hints.  The code reads the member [serverAddress] only. *)
Record ServerEntry := mkServerEntry {
  serverAddress : string;
  webServerSecret : string;
  capabilities : list string
}.

(** A default-constructed entry, as [vector::resize] appends when it grows. *)
Definition ServerEntry_default : ServerEntry :=
  mkServerEntry EmptyString EmptyString [].

(** [ServerRequest::ReqLevel], the two levels the code uses. *)
Inductive ReqLevel := FULL | ONLY_IF_TRANSPORT.

(** The exception types that occur in the file. *)
Inductive Exn :=
| TryNextServer                      (* TransportConnection::TryNextServer *)
| TransportFailed                    (* ITransport::TransportFailed *)
| WorkerThreadError (what : string)  (* IWorkerThread::Error *)
| StdException (what : string).      (* std::exception and anything else *)

(** What a call on a collaborator does: it returns or it throws. *)
Inductive CallResult (A : Type) :=
| Normal (a : A)
| Throws (e : Exn).
Arguments Normal {A} a.
Arguments Throws {A} e.

(** How a member function ends: it returns, an exception leaves it, or it
    has run into undefined behaviour. *)
Inductive Outcome (A : Type) :=
| Returned (a : A)
| Raised (e : Exn)
| Undefined.
Arguments Returned {A} a.
Arguments Raised {A} e.
Arguments Undefined {A}.

(** The interface of [SessionInfo] that the code uses.  The class itself is
    defined elsewhere, so its operations are the methods of a type class. *)
Class SessionInfoOps (SessionInfo : Type) := {
  (* SessionInfo(), the default constructor used by vector::resize *)
  SessionInfo_default : SessionInfo;
  (* void Set(const ServerEntry&) *)
  SessionInfo_Set : SessionInfo -> ServerEntry -> SessionInfo;
  GetClientSessionID : SessionInfo -> string;
  GetWebServerSecret : SessionInfo -> string;
  (* bool ParseHandshakeResponse(const char [*] response): the result and the
     object as the call leaves it *)
  ParseHandshakeResponse : SessionInfo -> string -> (bool * SessionInfo)%type
}.

Section Orchestrator.

Context {SessionInfo : Type} `{SessionInfoOps SessionInfo}.

(** [ITransport]: the observers the code calls, and what its blocking
    [Connect] does on a given candidate vector (the chosen index it writes
    to [chosenSessionInfoIndex], or the exception it throws). *)
Record ITransport := mkTransport {
  IsHandshakeRequired : ServerEntry -> bool;
  GetMultiConnectCount : nat;
  GetTransportProtocolName : string;
  GetLocalProxyParentPort : Z;
  transport_Connect : list SessionInfo -> CallResult Z
}.

(** [LocalProxy]: the constructor arguments that the object keeps. *)
Record LocalProxy := mkLocalProxy {
  lp_sessionInfo : SessionInfo;
  lp_parentPort : Z;
  lp_splitTunnelingFilePath : string
}.

(** Everything outside the class: Win32 calls, the server request, the
    local proxy thread and the values embedded at build time. *)
Record World := mkWorld {
  DeleteFile : string -> bool;
  GetLastError : Z;
  MakeRequest : ReqLevel -> SessionInfo -> string -> CallResult (bool * string)%type;
  LocalProxy_Start : LocalProxy -> CallResult bool;
  WaitForMultipleObjects : Z;
  PROPAGATION_CHANNEL_ID : string;
  SPONSOR_ID : string;
  CLIENT_VERSION : string
}.

(** Calls on collaborators, in the order in which they happen. *)
Inductive Event :=
| EvDeleteFile (path : string)
| EvMakeRequest (level : ReqLevel) (path : string)
| EvSynchReset
| EvTransportConnect (candidates : list SessionInfo)
| EvLocalProxyNew
| EvLocalProxyStart
| EvSettingsApply
| EvSettingsRevert
| EvLocalProxyUpdateSessionInfo (s : SessionInfo)
| EvTransportUpdateSessionInfo (s : SessionInfo)
| EvTransportStop
| EvTransportCleanup
| EvLocalProxyStop
| EvLocalProxyDelete
| EvWaitForMultipleObjects.

(** The members of the object ([m_systemProxySettings] and
    [m_workerThreadSynch] are seen through their events), the caller's
    vector, the local vector of [Connect] and the trace. *)
Record Machine := mkMachine {
  m_transport : option ITransport;
  m_localProxy : option LocalProxy;
  m_sessionInfo : SessionInfo;
  io_serverEntries : list ServerEntry;
  sessionInfoCandidates : list SessionInfo;
  trace : list Event
}.

(** The constructor: both pointers are null. *)
Definition TransportConnection_new (entries : list ServerEntry) : Machine :=
  mkMachine None None SessionInfo_default entries [] [].

Definition set_m_transport (t : option ITransport) (s : Machine) : Machine :=
  mkMachine t (m_localProxy s) (m_sessionInfo s) (io_serverEntries s)
            (sessionInfoCandidates s) (trace s).
Definition set_m_localProxy (p : option LocalProxy) (s : Machine) : Machine :=
  mkMachine (m_transport s) p (m_sessionInfo s) (io_serverEntries s)
            (sessionInfoCandidates s) (trace s).
Definition set_m_sessionInfo (i : SessionInfo) (s : Machine) : Machine :=
  mkMachine (m_transport s) (m_localProxy s) i (io_serverEntries s)
            (sessionInfoCandidates s) (trace s).
Definition set_io_serverEntries (l : list ServerEntry) (s : Machine) : Machine :=
  mkMachine (m_transport s) (m_localProxy s) (m_sessionInfo s) l
            (sessionInfoCandidates s) (trace s).
Definition set_sessionInfoCandidates (l : list SessionInfo) (s : Machine) : Machine :=
  mkMachine (m_transport s) (m_localProxy s) (m_sessionInfo s)
            (io_serverEntries s) l (trace s).
Definition add_event (e : Event) (s : Machine) : Machine :=
  mkMachine (m_transport s) (m_localProxy s) (m_sessionInfo s)
            (io_serverEntries s) (sessionInfoCandidates s) (trace s ++ [e]).

(** ** The monad: state, exceptions and undefined behaviour *)

Definition M (A : Type) : Type := Machine -> (Outcome A * Machine)%type.

Definition ret {A} (a : A) : M A := fun s => (Returned a, s).

Definition bind {A B} (m : M A) (k : A -> M B) : M B :=
  fun s =>
    match m s with
    | (Returned a, s') => k a s'
    | (Raised e, s') => (Raised e, s')
    | (Undefined, s') => (Undefined, s')
    end.

Definition throw {A} (e : Exn) : M A := fun s => (Raised e, s).
Definition undefined {A} : M A := fun s => (Undefined, s).

(** [try { body } catch (...) { handler }]; undefined behaviour is not an
    exception and is not caught. *)
Definition try_catch {A} (body : M A) (handler : Exn -> M A) : M A :=
  fun s =>
    match body s with
    | (Raised e, s') => handler e s'
    | r => r
    end.

Definition gets {A} (f : Machine -> A) : M A := fun s => (Returned (f s), s).
Definition modify (f : Machine -> Machine) : M unit := fun s => (Returned tt, f s).
Definition emit (e : Event) : M unit := modify (add_event e).

(** A call that can throw: the event is recorded, then the result decides. *)
Definition call {A} (e : Event) (r : CallResult A) : M A :=
  bind (emit e) (fun _ => match r with Normal a => ret a | Throws x => throw x end).

(** [p->...] on a member pointer: null is undefined behaviour. *)
Definition deref {A} (f : Machine -> option A) : M A :=
  fun s => match f s with Some a => (Returned a, s) | None => (Undefined, s) end.

(** [v.front()] and [v[i]]: outside the vector is undefined behaviour. *)
Definition front {A} (l : list A) : M A :=
  match l with x :: _ => ret x | [] => undefined end.
Definition at_index {A} (l : list A) (i : nat) : M A :=
  match l !! i with Some x => ret x | None => undefined end.
(** Indexing with a signed [int]: a negative index converts to a huge
    [size_t], which is out of range. *)
Definition at_int {A} (l : list A) (i : Z) : M A :=
  if (i <? 0)%Z then undefined else at_index l (Z.to_nat i).

Notation "x <- m ;; k" := (bind m (fun x => k))
  (at level 100, m at next level, right associativity).
Notation "m ;;; k" := (bind m (fun _ => k))
  (at level 100, right associativity).

(** [vector::resize(n)]: keeps the first [n] elements, and appends
    default-constructed ones when the vector was shorter. *)
Definition resize {A} (d : A) (n : nat) (l : list A) : list A :=
  take n l ++ replicate (n - length l) d.

(** ** Connect, lines 69-102: the candidate filter *)

(** Lines 88-94.  [eraseLoop t k] runs the iterations [i = k-1, ..., 0] of
    [for (int i = size-1; i >= 0; i--) if (IsHandshakeRequired(v[i]))
    v.erase(v.begin()+i);]. *)
Fixpoint eraseLoop (transport : ITransport) (k : nat) : M unit :=
  match k with
  | O => ret tt
  | S i =>
      entries <- gets io_serverEntries ;;
      e <- at_index entries i ;;
      (if IsHandshakeRequired transport e
       then modify (set_io_serverEntries (delete i entries))
       else ret tt) ;;;
      eraseLoop transport i
  end.

Definition Connect_filter (transport : ITransport) (disallowHandshake : bool)
  : M unit :=
  entries <- gets io_serverEntries ;;
  first <- front entries ;;
  if IsHandshakeRequired transport first then
    (* assert(io_serverEntries.size() == 1);
       assert(transport->GetMultiConnectCount() == 1); *)
    modify (set_io_serverEntries (resize ServerEntry_default 1 entries)) ;;;
    if disallowHandshake then throw TryNextServer else ret tt
  else
    eraseLoop transport (length entries) ;;;
    entries <- gets io_serverEntries ;;
    if GetMultiConnectCount transport <? length entries
    then modify (set_io_serverEntries
                   (resize ServerEntry_default (GetMultiConnectCount transport) entries))
    else ret tt.

(** ** GetHandshakeRequestPath, lines 286-307 *)

(** [NarrowToTString] widens a narrow string character by character; on
    the characters themselves it is the identity. *)
Definition NarrowToTString (narrow : string) : string := narrow.

(** Modelled from the spec: the macro [HTTP_HANDSHAKE_REQUEST_PATH] is
    defined in [config.h], outside [transport_connection.cpp]; the spec
    gives the request path as beginning with [/handshake]. *)
Definition HTTP_HANDSHAKE_REQUEST_PATH : string := "/handshake".

Variable W : World.

Definition GetHandshakeRequestPath
    (sessionInfo : SessionInfo) (serverEntries : list ServerEntry) : M string :=
  transport <- deref m_transport ;;
  let handshakeRequestPath :=
    ((((((((((((HTTP_HANDSHAKE_REQUEST_PATH
      +:+ "?client_session_id=") +:+ NarrowToTString (GetClientSessionID sessionInfo))
      +:+ "&propagation_channel_id=") +:+ NarrowToTString (PROPAGATION_CHANNEL_ID W))
      +:+ "&sponsor_id=") +:+ NarrowToTString (SPONSOR_ID W))
      +:+ "&client_version=") +:+ NarrowToTString (CLIENT_VERSION W))
      +:+ "&server_secret=") +:+ NarrowToTString (GetWebServerSecret sessionInfo))
      +:+ "&relay_protocol=") +:+ GetTransportProtocolName transport) in
  (* for (ii = serverEntries.begin(); ii != serverEntries.end(); ++ii) *)
  ret (foldl (fun path ii =>
                (path +:+ "&known_server=") +:+ NarrowToTString (serverAddress ii))
             handshakeRequestPath serverEntries).

(** ** DoHandshake, lines 248-284 *)

(** The two objects that [DoHandshake] receives by reference:
    [sessionInfoCandidates.front()] and [m_sessionInfo]. *)
Inductive SessionInfoRef := ref_candidates_front | ref_m_sessionInfo.

Definition load_ref (r : SessionInfoRef) : M SessionInfo :=
  match r with
  | ref_candidates_front => l <- gets sessionInfoCandidates ;; front l
  | ref_m_sessionInfo => gets m_sessionInfo
  end.

Definition store_ref (r : SessionInfoRef) (v : SessionInfo) : M unit :=
  match r with
  | ref_candidates_front =>
      l <- gets sessionInfoCandidates ;;
      match l with
      | _ :: rest => modify (set_sessionInfoCandidates (v :: rest))
      | [] => undefined
      end
  | ref_m_sessionInfo => modify (set_m_sessionInfo v)
  end.

Definition DoHandshake (preTransport : bool) (sessionInfo : SessionInfoRef)
    (serverEntries : list ServerEntry) : M bool :=
  si <- load_ref sessionInfo ;;
  handshakeRequestPath <- GetHandshakeRequestPath si serverEntries ;;
  let reqLevel := if preTransport then FULL else ONLY_IF_TRANSPORT in
  r <- call (EvMakeRequest reqLevel handshakeRequestPath)
            (MakeRequest W reqLevel si handshakeRequestPath) ;;
  let handshakeResponse := r.2 in
  if negb r.1 || (String.length handshakeResponse <=? 0) then
    ret false
  else
    let parsed := ParseHandshakeResponse si handshakeResponse in
    (* the parser works on the referenced object itself *)
    store_ref sessionInfo parsed.2 ;;;
    if negb parsed.1 then throw TryNextServer else ret true.

(** ** Cleanup, lines 309-325 *)

Definition Cleanup : M unit :=
  emit EvSettingsRevert ;;;
  t <- gets m_transport ;;
  (match t with
   | Some _ => emit EvTransportStop ;;; emit EvTransportCleanup
   | None => ret tt
   end) ;;;
  p <- gets m_localProxy ;;
  (match p with
   | Some _ => emit EvLocalProxyDelete
   | None => ret tt
   end) ;;;
  modify (set_m_localProxy None).

(** ** Connect, lines 47-221 *)

Definition ERROR_FILE_NOT_FOUND : Z := 2.

(** Lines 118-206: the body of the [try] block. *)
Definition Connect_try (splitTunnelingFilePath : string) (disallowHandshake : bool)
  : M unit :=
  (* Delete any leftover split tunnelling rules *)
  (if 0 <? String.length splitTunnelingFilePath then
     deleted <- call (EvDeleteFile splitTunnelingFilePath)
                     (Normal (DeleteFile W splitTunnelingFilePath)) ;;
     if negb deleted && negb (GetLastError W =? ERROR_FILE_NOT_FOUND)%Z
     then throw (StdException "TransportConnection::Connect - DeleteFile failed")
     else ret tt
   else ret tt) ;;;
  transport <- deref m_transport ;;
  entries <- gets io_serverEntries ;;
  first <- front entries ;;
  handshakeDone <-
    (if IsHandshakeRequired transport first then
       ok <- DoHandshake true ref_candidates_front entries ;;
       if negb ok then throw TryNextServer else ret true
     else ret false) ;;
  emit EvSynchReset ;;;
  candidates <- gets sessionInfoCandidates ;;
  chosenSessionInfoIndex <-
    call (EvTransportConnect candidates) (transport_Connect transport candidates) ;;
  (* assert(chosenSessionInfoIndex >= 0 && chosenSessionInfoIndex < size); *)
  chosen <- at_int candidates chosenSessionInfoIndex ;;
  modify (set_m_sessionInfo chosen) ;;;
  (* Set up and start the local proxy. *)
  emit EvLocalProxyNew ;;;
  let localProxy :=
    mkLocalProxy chosen (GetLocalProxyParentPort transport) splitTunnelingFilePath in
  modify (set_m_localProxy (Some localProxy)) ;;;
  started <- call EvLocalProxyStart (LocalProxy_Start W localProxy) ;;
  (if negb started
   then throw (WorkerThreadError "LocalProxy::Start failed")
   else ret tt) ;;;
  emit EvSettingsApply ;;;
  (* If we didn't do the handshake before, do it now. *)
  (if negb handshakeDone && negb disallowHandshake then
     entries <- gets io_serverEntries ;;
     _ <- DoHandshake false ref_m_sessionInfo entries ;;
     (* We do not fail regardless of whether the handshake succeeds. *)
     ret tt
   else ret tt) ;;;
  updated <- gets m_sessionInfo ;;
  proxy <- deref m_localProxy ;;
  emit (EvLocalProxyUpdateSessionInfo updated) ;;;
  modify (set_m_localProxy
            (Some (mkLocalProxy updated (lp_parentPort proxy)
                                (lp_splitTunnelingFilePath proxy)))) ;;;
  emit (EvTransportUpdateSessionInfo updated).

(** Lines 207-220: the two [catch] clauses. *)
Definition Connect_catch (e : Exn) : M unit :=
  match e with
  | TransportFailed => Cleanup ;;; throw TryNextServer
  | _ => Cleanup ;;; throw e
  end.

(** [stopInfo] and [statsCollector] are handed to the collaborators
    unchanged and are left out. *)
Definition Connect (transport : ITransport) (splitTunnelingFilePath : string)
    (disallowHandshake : bool) : M unit :=
  (* assert(m_transport == 0); assert(m_localProxy == 0);
     assert(transport); assert(io_serverEntries.size() > 0); *)
  Connect_filter transport disallowHandshake ;;;
  (* Create a vector of SessionInfo structs that use the ServerEntries. *)
  entries <- gets io_serverEntries ;;
  modify (set_sessionInfoCandidates
            (map (SessionInfo_Set SessionInfo_default) entries)) ;;;
  modify (set_m_transport (Some transport)) ;;;
  try_catch (Connect_try splitTunnelingFilePath disallowHandshake) Connect_catch.

(** ** WaitForDisconnect, lines 223-246 *)

Definition WAIT_OBJECT_0 : Z := 0.

Definition WaitForDisconnect : M unit :=
  _ <- deref m_transport ;;       (* m_transport->GetStoppedEvent() *)
  _ <- deref m_localProxy ;;      (* m_localProxy->GetStoppedEvent() *)
  let waitHandlesCount : Z := 2%Z in  (* sizeof(waitHandles)/sizeof(HANDLE) *)
  emit EvWaitForMultipleObjects ;;;
  let result := WaitForMultipleObjects W in
  (* One of the transport or the local proxy has stopped.
     Make sure they both are. *)
  emit EvLocalProxyStop ;;;
  emit EvTransportStop ;;;
  Cleanup ;;;
  if (WAIT_OBJECT_0 + waitHandlesCount - 1 <? result)%Z
  then throw (WorkerThreadError "WaitForMultipleObjects failed")
  else ret tt.

(** The destructor, lines 37-40, and [GetUpdatedSessionInfo], lines 42-45. *)
Definition TransportConnection_delete : M unit := Cleanup.
Definition GetUpdatedSessionInfo : M SessionInfo := gets m_sessionInfo.

End Orchestrator.

(** ** Vocabulary of the properties *)

Section Vocabulary.

Context {SessionInfo : Type} `{SessionInfoOps SessionInfo}.

(** A [Stop] request on the transport or on the local proxy. *)
Definition is_stop_call (e : @Event SessionInfo) : bool :=
  match e with
  | EvTransportStop | EvLocalProxyStop => true
  | _ => false
  end.

Definition is_revert (e : @Event SessionInfo) : bool :=
  match e with EvSettingsRevert => true | _ => false end.

Definition is_apply (e : @Event SessionInfo) : bool :=
  match e with EvSettingsApply => true | _ => false end.

Definition is_transport_connect (e : @Event SessionInfo) : bool :=
  match e with EvTransportConnect _ => true | _ => false end.

(** No [Stop] request is made before the first revert of the system proxy
    settings: reading the trace from its start, a revert is met before any
    [Stop] (a trace without [Stop] satisfies it). *)
Fixpoint revert_precedes_stops (tr : list (@Event SessionInfo)) : bool :=
  match tr with
  | [] => true
  | e :: rest =>
      if is_revert e then true
      else if is_stop_call e then false
      else revert_precedes_stops rest
  end.

(** The events that a run appended to the trace it started from. *)
Definition events_since (before after : @Machine SessionInfo) : list Event :=
  drop (length (trace before)) (trace after).


(** The request of the post-connect handshake. *)
Definition is_post_handshake (e : @Event SessionInfo) : bool :=
  match e with EvMakeRequest ONLY_IF_TRANSPORT _ => true | _ => false end.


(** The state in which the [try] block of [Connect] starts, once the
    filter has left the list [l]. *)
Definition at_try (t : @ITransport SessionInfo) (l : list ServerEntry)
    (s : @Machine SessionInfo) : @Machine SessionInfo :=
  mkMachine (Some t) (m_localProxy s) (m_sessionInfo s) l
            (map (SessionInfo_Set SessionInfo_default) l) (trace s).

(** A computation that leaves the caller's vector as it found it. *)
Definition keeps_entries {A} (m : @M SessionInfo A) : Prop :=
  forall s, io_serverEntries (m s).2 = io_serverEntries s.

(** The entries that need no pre-handshake, in their order. *)
Definition handshake_free (t : @ITransport SessionInfo) (l : list ServerEntry)
  : list ServerEntry :=
  filter (fun e => IsHandshakeRequired t e = false) l.

(** The request path as the interface description writes it: the fixed
    query followed by one [known_server] component per entry. *)
Definition spec_HandshakeRequestPath (W : @World SessionInfo) (protocol : string)
    (sessionInfo : SessionInfo) (serverEntries : list ServerEntry) : string :=
  "/handshake?client_session_id=" +:+ GetClientSessionID sessionInfo
  +:+ "&propagation_channel_id=" +:+ PROPAGATION_CHANNEL_ID W
  +:+ "&sponsor_id=" +:+ SPONSOR_ID W
  +:+ "&client_version=" +:+ CLIENT_VERSION W
  +:+ "&server_secret=" +:+ GetWebServerSecret sessionInfo
  +:+ "&relay_protocol=" +:+ protocol
  +:+ foldr (fun e rest => "&known_server=" +:+ serverAddress e +:+ rest)
            "" serverEntries.

(** *** Further vocabulary, for the properties beyond the claims *)

Definition is_local_proxy_new (e : @Event SessionInfo) : bool :=
  match e with EvLocalProxyNew => true | _ => false end.

Definition is_local_proxy_delete (e : @Event SessionInfo) : bool :=
  match e with EvLocalProxyDelete => true | _ => false end.

Definition is_delete_file (e : @Event SessionInfo) : bool :=
  match e with EvDeleteFile _ => true | _ => false end.


(** How many events of a kind a trace holds. *)
Fixpoint count_events (p : @Event SessionInfo -> bool) (tr : list (@Event SessionInfo))
  : nat :=
  match tr with
  | [] => 0
  | e :: rest => (if p e then 1 else 0) + count_events p rest
  end.

(** The paths of the handshake requests of a trace, in order. *)
Fixpoint request_paths (tr : list (@Event SessionInfo)) : list string :=
  match tr with
  | [] => []
  | EvMakeRequest _ path :: rest => path :: request_paths rest
  | _ :: rest => request_paths rest
  end.

(** The candidate vectors handed to the transport's [Connect]. *)
Fixpoint connect_candidates (tr : list (@Event SessionInfo))
  : list (list SessionInfo) :=
  match tr with
  | [] => []
  | EvTransportConnect c :: rest => c :: connect_candidates rest
  | _ :: rest => connect_candidates rest
  end.


(** What the [catch] clauses of [Connect] make of an exception. *)
Definition rethrown (e : Exn) : Exn :=
  match e with TransportFailed => TryNextServer | _ => e end.

(** The session behind a reference, when there is one. *)
Definition referenced (r : SessionInfoRef) (s : @Machine SessionInfo)
  : option SessionInfo :=
  match r with
  | ref_candidates_front => head (sessionInfoCandidates s)
  | ref_m_sessionInfo => Some (m_sessionInfo s)
  end.

(** The request level of line 261. *)
Definition level_of (preTransport : bool) : ReqLevel :=
  if preTransport then FULL else ONLY_IF_TRANSPORT.


(** The list that the filter of [Connect] is to leave: the first entry
    alone when it needs a pre-handshake, otherwise the first entries that
    need none, as many as the transport connects at once. *)
Definition usable_entries (t : @ITransport SessionInfo) (l : list ServerEntry)
  : list ServerEntry :=
  match l with
  | [] => []
  | first :: _ =>
      if IsHandshakeRequired t first then [first]
      else take (GetMultiConnectCount t) (handshake_free t l)
  end.

End Vocabulary.

(** ** A concrete client, to run the definitions *)

Module Demo.

Record Session := mkSession {
  s_clientSessionID : string;
  s_serverAddress : string;
  s_webServerSecret : string;
  s_homepages : list string
}.

(** A response parses when it starts with [Homepage: ]; what is learned
    replaces what was learned before. *)
#[export] Instance Session_ops : SessionInfoOps Session := {|
  SessionInfo_default := mkSession "" "" "" [];
  SessionInfo_Set s e :=
    mkSession "C0FFEE" (serverAddress e) (webServerSecret e) (s_homepages s);
  GetClientSessionID := s_clientSessionID;
  GetWebServerSecret := s_webServerSecret;
  ParseHandshakeResponse s response :=
    if String.prefix "Homepage: " response
    then (true, mkSession (s_clientSessionID s) (s_serverAddress s)
                          (s_webServerSecret s) [response])
    else (false, s)
|}.

Definition ssh1 : ServerEntry := mkServerEntry "192.0.2.1" "secret1" ["SSH"].
Definition ssh2 : ServerEntry := mkServerEntry "192.0.2.2" "secret2" ["SSH"].
Definition ssh3 : ServerEntry := mkServerEntry "192.0.2.3" "secret3" ["SSH"].
Definition vpn1 : ServerEntry := mkServerEntry "198.51.100.1" "secret4" ["VPN"].
Definition vpn2 : ServerEntry := mkServerEntry "198.51.100.2" "secret5" ["VPN"].

(** An entry needs a pre-handshake when it does not list the SSH capability. *)
Definition needs_handshake (e : ServerEntry) : bool :=
  negb (existsb (String.eqb "SSH") (capabilities e)).

(** A transport that connects to the candidate [winner] (or throws), and
    that tries [count] candidates at once. *)
Definition transport (count : nat) (result : CallResult Z) : @ITransport Session :=
  mkTransport needs_handshake count "SSH" 1080%Z (fun _ => result).

(** A world in which the handshake request gives [handshake], the local
    proxy start gives [start] and the wait returns [wait]. *)
Definition world (handshake : CallResult (bool * string))
    (start : CallResult bool) (wait : Z) : @World Session :=
  mkWorld (fun _ => true) 0%Z (fun _ _ _ => handshake) (fun _ => start) wait
          "CHANNEL" "SPONSOR" "42".

Definition good_response : CallResult (bool * string) :=
  Normal (true, "Homepage: https://example.org").
Definition malformed_response : CallResult (bool * string) :=
  Normal (true, "<html>502</html>").

(** An SSH transport that tries two candidates at once and connects to
    the second, and a world where everything works. *)
Definition ssh_transport : @ITransport Session := transport 2 (Normal 1%Z).
Definition fine_world : @World Session := world good_response (Normal true) 0%Z.

(** Four candidates as the caller hands them in, SSH first. *)
Definition ssh_first : @Machine Session :=
  TransportConnection_new [ssh1; vpn1; ssh2; ssh3].

(** Three candidates, the first of which needs a pre-handshake. *)
Definition vpn_first : @Machine Session :=
  TransportConnection_new [vpn1; ssh1; vpn2].

(** The object after a successful [Connect]. *)
Definition connected : @Machine Session :=
  (Connect fine_world ssh_transport "" false ssh_first).2.

(** A world in which the wait of [WaitForDisconnect] returns
    [WAIT_FAILED]. *)
Definition wait_failed_world : @World Session :=
  world good_response (Normal true) 4294967295%Z.

End Demo.

(** * Properties *)

Section Properties.

Context {SessionInfo : Type} `{SessionInfoOps SessionInfo}.
Implicit Types (s : @Machine SessionInfo) (t : @ITransport SessionInfo).
Implicit Types (W : @World SessionInfo) (l : list ServerEntry).

(** ** The state setters *)

Lemma set_io_serverEntries_id s : set_io_serverEntries (io_serverEntries s) s = s.
Proof. by destruct s. Qed.

Lemma set_io_serverEntries_twice l l' s :
  set_io_serverEntries l (set_io_serverEntries l' s) = set_io_serverEntries l s.
Proof. done. Qed.

(** ** The erase loop is a filter *)

Lemma handshake_free_snoc_drop t l i e :
  l !! i = Some e ->
  handshake_free t (take (S i) l) ++ drop (S i) l =
  handshake_free t (take i l) ++
    (if IsHandshakeRequired t e then drop (S i) l else drop i l).
Proof.
  intros Hi. unfold handshake_free.
  rewrite (take_S_r _ _ _ Hi), filter_app, <- app_assoc. f_equal.
  destruct (IsHandshakeRequired t e) eqn:He.
  - rewrite filter_cons_False, filter_nil by congruence. done.
  - rewrite filter_cons_True, filter_nil by done.
    by rewrite (drop_S _ _ _ Hi).
Qed.

Lemma eraseLoop_spec t k : forall s,
  k <= length (io_serverEntries s) ->
  eraseLoop t k s =
    (Returned tt,
     set_io_serverEntries
       (handshake_free t (take k (io_serverEntries s)) ++ drop k (io_serverEntries s)) s).
Proof.
  induction k as [|i IH]; intros s Hk.
  - cbn. rewrite take_0, drop_0. unfold handshake_free.
    rewrite filter_nil. cbn. by rewrite set_io_serverEntries_id.
  - destruct (lookup_lt_is_Some_2 (io_serverEntries s) i) as [e He]; [lia|].
    rewrite (handshake_free_snoc_drop _ _ _ _ He).
    cbn [eraseLoop]. unfold bind at 1. cbn [gets].
    unfold bind at 1. unfold at_index. rewrite He. cbn [ret].
    unfold bind at 1.
    destruct (IsHandshakeRequired t e); cbn [modify ret].
    + rewrite IH; cbn [io_serverEntries set_io_serverEntries].
      * rewrite set_io_serverEntries_twice. do 2 f_equal.
        rewrite delete_take_drop.
        rewrite take_app_le by (rewrite length_take; lia).
        rewrite take_take, Nat.min_id.
        rewrite drop_app_length' by (rewrite length_take; lia).
        done.
      * rewrite length_delete by eauto. lia.
    + rewrite IH by lia. done.
Qed.

(** ** The candidate filter, as one step on the caller's vector *)

Lemma resize_shrink {A} (d : A) n (v : list A) :
  n <= length v -> resize d n v = take n v.
Proof.
  intros Hn. unfold resize.
  replace (n - length v) with 0 by lia. cbn. by rewrite app_nil_r.
Qed.

Lemma Connect_filter_handshake t d s first rest :
  io_serverEntries s = first :: rest ->
  IsHandshakeRequired t first = true ->
  Connect_filter t d s =
    (if d then Raised TryNextServer else Returned tt,
     set_io_serverEntries [first] s).
Proof.
  intros Hs Hfirst. unfold Connect_filter, bind, gets, front, modify.
  rewrite Hs. cbn. rewrite Hfirst. by destruct d.
Qed.

Lemma Connect_filter_free t d s first rest :
  io_serverEntries s = first :: rest ->
  IsHandshakeRequired t first = false ->
  Connect_filter t d s =
    (Returned tt,
     set_io_serverEntries
       (take (GetMultiConnectCount t) (handshake_free t (first :: rest))) s).
Proof.
  intros Hs Hfirst. unfold Connect_filter.
  unfold bind at 1. cbn [gets]. unfold bind at 1. rewrite Hs. cbn [front ret].
  rewrite Hfirst. unfold bind at 1.
  rewrite eraseLoop_spec by (by rewrite Hs).
  rewrite Hs, firstn_all, drop_all, app_nil_r.
  unfold bind at 1. cbn [gets io_serverEntries set_io_serverEntries].
  destruct (Nat.ltb_spec (GetMultiConnectCount t)
              (length (handshake_free t (first :: rest)))) as [Hlt|Hge].
  - unfold modify. rewrite set_io_serverEntries_twice.
    by rewrite resize_shrink by lia.
  - unfold ret. by rewrite take_ge by lia.
Qed.

(** ** Nothing after the filter touches the caller's vector *)

Create HintDb frame discriminated.

Lemma keeps_ret {A} (a : A) : @keeps_entries SessionInfo A (ret a).
Proof. done. Qed.
Lemma keeps_throw {A} e : @keeps_entries SessionInfo A (throw e).
Proof. done. Qed.
Lemma keeps_undefined {A} : @keeps_entries SessionInfo A undefined.
Proof. done. Qed.
Lemma keeps_gets {A} (f : @Machine SessionInfo -> A) : keeps_entries (gets f).
Proof. done. Qed.
Lemma keeps_emit (e : @Event SessionInfo) : keeps_entries (emit e).
Proof. done. Qed.
Lemma keeps_deref {A} (f : @Machine SessionInfo -> option A) :
  keeps_entries (deref f).
Proof. intros s. unfold deref. by destruct (f s). Qed.
Lemma keeps_set_m_transport (o : option (@ITransport SessionInfo)) :
  keeps_entries (modify (set_m_transport o)).
Proof. done. Qed.
Lemma keeps_set_m_localProxy (o : option (@LocalProxy SessionInfo)) :
  keeps_entries (modify (set_m_localProxy o)).
Proof. done. Qed.
Lemma keeps_set_m_sessionInfo (i : SessionInfo) : keeps_entries (modify (set_m_sessionInfo i)).
Proof. done. Qed.
Lemma keeps_set_sessionInfoCandidates (c : list SessionInfo) :
  keeps_entries (modify (set_sessionInfoCandidates c)).
Proof. done. Qed.

Lemma keeps_bind {A B} (m : @M SessionInfo A) (k : A -> M B) :
  keeps_entries m -> (forall a, keeps_entries (k a)) -> keeps_entries (bind m k).
Proof.
  intros Hm Hk s. unfold bind. specialize (Hm s).
  destruct (m s) as [[a|e|] s']; cbn in *; [|done..].
  by rewrite Hk.
Qed.

Lemma keeps_try_catch {A} (m : @M SessionInfo A) (h : Exn -> M A) :
  keeps_entries m -> (forall e, keeps_entries (h e)) -> keeps_entries (try_catch m h).
Proof.
  intros Hm Hh s. unfold try_catch. specialize (Hm s).
  destruct (m s) as [[a|e|] s']; cbn in *; [done| |done].
  by rewrite Hh.
Qed.

Hint Resolve keeps_ret keeps_throw keeps_undefined keeps_gets keeps_emit
  keeps_deref keeps_set_m_transport keeps_set_m_localProxy
  keeps_set_m_sessionInfo keeps_set_sessionInfoCandidates : frame.

(** One step of the frame argument: split a sequence, decide a branch, or
    close a single operation. *)
Ltac frame_step :=
  first
    [ solve [auto with frame]
    | apply keeps_bind; [|intros ?]
    | apply keeps_try_catch; [|intros ?]
    | match goal with
      | |- keeps_entries (if ?b then _ else _) => destruct b
      | |- keeps_entries (match ?x with _ => _ end) => destruct x
      end ].
Ltac frame := repeat frame_step.

Lemma keeps_call {A} (ev : @Event SessionInfo) (r : CallResult A) :
  keeps_entries (call ev r).
Proof. unfold call. frame. Qed.
Lemma keeps_front {A} (v : list A) : @keeps_entries SessionInfo A (front v).
Proof. unfold front. frame. Qed.
Lemma keeps_at_index {A} (v : list A) i :
  @keeps_entries SessionInfo A (at_index v i).
Proof. unfold at_index. frame. Qed.
Lemma keeps_at_int {A} (v : list A) i :
  @keeps_entries SessionInfo A (at_int v i).
Proof. unfold at_int, at_index. frame. Qed.
Hint Resolve keeps_call keeps_front keeps_at_index keeps_at_int : frame.

Lemma keeps_GetHandshakeRequestPath W i l :
  keeps_entries (GetHandshakeRequestPath W i l).
Proof. unfold GetHandshakeRequestPath. frame. Qed.
Hint Resolve keeps_GetHandshakeRequestPath : frame.

Lemma keeps_DoHandshake W pre r l : keeps_entries (DoHandshake W pre r l).
Proof. unfold DoHandshake, load_ref, store_ref. frame. Qed.

Lemma keeps_Cleanup : @keeps_entries SessionInfo unit Cleanup.
Proof. unfold Cleanup. frame. Qed.
Hint Resolve keeps_DoHandshake keeps_Cleanup : frame.

Lemma keeps_Connect_try W p d : keeps_entries (Connect_try W p d).
Proof. unfold Connect_try. frame. Qed.

Lemma keeps_Connect_catch e : @keeps_entries SessionInfo unit (Connect_catch e).
Proof. unfold Connect_catch. frame. Qed.
Hint Resolve keeps_Connect_try keeps_Connect_catch : frame.

Lemma Connect_entries W t p d s :
  io_serverEntries (Connect W t p d s).2 = io_serverEntries (Connect_filter t d s).2.
Proof.
  unfold Connect. unfold bind at 1.
  destruct (Connect_filter t d s) as [[[]|e|] s']; cbn [snd]; [|done..].
  match goal with |- io_serverEntries (?m s').2 = _ =>
    assert (keeps_entries m) as Hm by frame end.
  apply Hm.
Qed.

(** ** Running the monad symbolically *)

Lemma events_since_app s (tr : list (@Event SessionInfo)) s' :
  trace s' = trace s ++ tr -> events_since s s' = tr.
Proof. intros Htr. unfold events_since. rewrite Htr. apply drop_app_length. Qed.

(** Compute the projections of a state built by the setters. *)
Ltac state_cbn :=
  cbn [fst snd m_transport m_localProxy m_sessionInfo io_serverEntries
       sessionInfoCandidates trace set_m_transport set_m_localProxy
       set_m_sessionInfo set_io_serverEntries set_sessionInfoCandidates
       add_event at_try negb andb orb map] in *.

(** Unfold the operations of the monad. *)
Ltac unfold_run :=
  unfold Connect_try, Connect_catch, Cleanup, DoHandshake,
    GetHandshakeRequestPath, load_ref, store_ref, call, emit, at_int, at_index,
    front, deref, try_catch, bind, gets, modify, ret, throw, undefined in *;
  state_cbn.

(** Decide the innermost branch that the hypotheses leave open. *)
Ltac branch :=
  match goal with
  | |- context [match ?x with _ => _ end] =>
      lazymatch x with
      | context [match _ with _ => _ end] => fail
      | _ => destruct x eqn:?
      end
  end;
  state_cbn.

Lemma Connect_after_filter W t p d s l :
  Connect_filter t d s = (Returned tt, set_io_serverEntries l s) ->
  Connect W t p d s =
  try_catch (Connect_try W p d) Connect_catch (at_try t l s).
Proof. intros Hf. unfold Connect. unfold bind at 1. by rewrite Hf. Qed.

Lemma events_since_at_try t l s s' :
  events_since s s' = events_since (at_try t l s) s'.
Proof. done. Qed.

(** Bring a trace into the shape [old ++ [e1; ...; en]]. *)
Ltac flatten_trace :=
  rewrite <- ?app_assoc in *; cbn [app] in *.

(** ** The claims on the candidate filter *)

(** C4. For every non-empty candidate list whose first entry requires a
    pre-handshake, the filtering step truncates the caller's list in place
    to exactly the original first entry, whatever the length of the input;
    the list is still that one-entry list when [Connect] is left, however
    it is left. *)
Theorem Connect_prehandshake_truncates_to_first W t p d s first rest :
  io_serverEntries s = first :: rest ->
  IsHandshakeRequired t first = true ->
  io_serverEntries (Connect_filter t d s).2 = [first] /\
  io_serverEntries (Connect W t p d s).2 = [first].
Proof.
  intros Hs Hfirst. rewrite Connect_entries.
  by rewrite (Connect_filter_handshake t d s first rest).
Qed.

(** C5. For every non-empty candidate list whose first entry does not
    require a pre-handshake, the filtering step returns normally and the
    filtered list holds no entry that requires a pre-handshake, is no
    longer than the transport's multi-connect count and is a subsequence,
    in order, of the input list; [Connect] leaves the caller with that
    list. *)
Theorem Connect_multi_connect_filter W t p d s first rest :
  io_serverEntries s = first :: rest ->
  IsHandshakeRequired t first = false ->
  let filtered := io_serverEntries (Connect_filter t d s).2 in
  (Connect_filter t d s).1 = Returned tt /\
  Forall (fun e => IsHandshakeRequired t e = false) filtered /\
  length filtered <= GetMultiConnectCount t /\
  filtered `sublist_of` io_serverEntries s /\
  io_serverEntries (Connect W t p d s).2 = filtered.
Proof.
  intros Hs Hfirst. cbv zeta. rewrite Connect_entries.
  rewrite (Connect_filter_free t d s first rest) by done.
  cbn [fst snd io_serverEntries set_io_serverEntries]. rewrite Hs.
  split_and!; try done.
  - apply Forall_take. unfold handshake_free.
    apply Forall_forall. intros e He. by apply list_elem_of_filter in He as [? _].
  - rewrite length_take. lia.
  - etrans; [apply sublist_take|]. unfold handshake_free. apply sublist_filter.
Qed.

(** C9. When the first entry requires a pre-handshake and the caller
    disallows handshakes, [Connect] throws [TryNextServer]; by then the
    caller's list has been cut down to its first entry and stays so, and
    nothing else has happened: no collaborator was called (so [Cleanup],
    which starts by reverting the proxy settings, did not run) and the
    members of the object are untouched. *)
Theorem Connect_disallowed_handshake_no_rollback W t p s first rest :
  io_serverEntries s = first :: rest ->
  IsHandshakeRequired t first = true ->
  (Connect W t p true s).1 = Raised TryNextServer /\
  io_serverEntries (Connect W t p true s).2 = [first] /\
  events_since s (Connect W t p true s).2 = [] /\
  m_transport (Connect W t p true s).2 = m_transport s /\
  m_localProxy (Connect W t p true s).2 = m_localProxy s.
Proof.
  intros Hs Hfirst.
  assert (Connect W t p true s =
          (Raised TryNextServer, set_io_serverEntries [first] s)) as ->.
  { unfold Connect. unfold bind at 1.
    by rewrite (Connect_filter_handshake t true s first rest). }
  cbn. split_and!; try done.
  apply events_since_app. by rewrite app_nil_r.
Qed.

(** C3, as the code has it.  Filtering a non-empty list leaves nothing
    exactly when the first entry needs no pre-handshake and the transport's
    multi-connect count is zero.  [Connect] has no error of its own for
    that case and does not test for it: the transport's connect is not
    called, and the run either fails on deleting the leftover split-tunnel
    file or reads the front of the empty vector, which C++ leaves
    undefined. *)
Theorem Connect_filter_empty_iff W t p d s first rest :
  io_serverEntries s = first :: rest ->
  (io_serverEntries (Connect_filter t d s).2 = [] <->
   IsHandshakeRequired t first = false /\ GetMultiConnectCount t = 0) /\
  (io_serverEntries (Connect_filter t d s).2 = [] ->
   existsb is_transport_connect (events_since s (Connect W t p d s).2) = false /\
   ((Connect W t p d s).1 = Undefined \/
    (Connect W t p d s).1 =
      Raised (StdException "TransportConnection::Connect - DeleteFile failed"))).
Proof.
  intros Hs.
  destruct (IsHandshakeRequired t first) eqn:Hfirst.
  - rewrite (Connect_filter_handshake t d s first rest) by done. cbn.
    split; [|done]. split; [done|]. by intros [? _].
  - pose proof (Connect_filter_free t d s first rest Hs Hfirst) as Hf.
    assert (io_serverEntries (Connect_filter t d s).2 = [] <->
            GetMultiConnectCount t = 0) as Hiff.
    { rewrite Hf. cbn [snd io_serverEntries set_io_serverEntries].
      unfold handshake_free.
      rewrite filter_cons_True by done.
      destruct (GetMultiConnectCount t); cbn; split; done. }
    split; [rewrite Hiff; tauto|].
    intros Hempty. apply Hiff in Hempty. rewrite Hempty in Hf. cbn [take] in Hf.
    rewrite (Connect_after_filter W t p d s []) by done.
    rewrite (events_since_at_try t []).
    unfold events_since. unfold_run.
    repeat branch; flatten_trace; rewrite ?drop_all, ?drop_app_length; cbn;
      auto.
Qed.

(** ** The claims on the failure paths of Connect *)

(** [Connect] on an empty vector reads its front at once. *)
Lemma Connect_empty W t p d s :
  io_serverEntries s = [] -> Connect W t p d s = (Undefined, s).
Proof.
  intros Hs. unfold Connect, Connect_filter. unfold bind at 1.
  unfold bind at 1. cbn [gets]. unfold bind at 1. by rewrite Hs.
Qed.

(** The runs of [Connect] that get past the filter: the list [l] it left
    is not empty, and the [try] block starts from [at_try t l s]. *)
Lemma Connect_cases W t p d s :
  Connect W t p d s = (Undefined, s) \/
  (exists first, Connect W t p d s = (Raised TryNextServer, set_io_serverEntries [first] s)) \/
  (exists l, Connect W t p d s =
             try_catch (Connect_try W p d) Connect_catch (at_try t l s)).
Proof.
  destruct (io_serverEntries s) as [|first rest] eqn:Hs.
  - left. by apply Connect_empty.
  - right. destruct (IsHandshakeRequired t first) eqn:Hfirst.
    + pose proof (Connect_filter_handshake t d s first rest Hs Hfirst) as Hf.
      destruct d.
      * left. exists first. unfold Connect. unfold bind at 1. by rewrite Hf.
      * right. exists [first]. by apply Connect_after_filter.
    + right. eexists. apply Connect_after_filter.
      by apply (Connect_filter_free t d s first rest).
Qed.

Ltac close_suffix :=
  repeat first [ reflexivity | apply suffix_cons_r ].


(** Every run of [Connect] reverts the proxy settings before it stops
    anything: the [try] block stops nothing, and [Cleanup] starts with the
    revert. *)
Lemma Connect_revert_precedes_stops W t p d s :
  revert_precedes_stops (events_since s (Connect W t p d s).2) = true.
Proof.
  destruct (Connect_cases W t p d s) as [-> | [[first ->] | [l ->]]].
  - unfold events_since. cbn. by rewrite drop_all.
  - unfold events_since. cbn. by rewrite drop_all.
  - rewrite (events_since_at_try t l). unfold events_since. unfold_run.
    repeat branch; flatten_trace; rewrite ?drop_all, ?drop_app_length; cbn;
      done.
Qed.


(** ** Cleanup and the handles *)

Lemma Cleanup_run s :
  Cleanup s =
  (Returned tt,
   mkMachine (m_transport s) None (m_sessionInfo s) (io_serverEntries s)
     (sessionInfoCandidates s)
     (trace s ++ [EvSettingsRevert]
        ++ match m_transport s with
           | Some _ => [EvTransportStop; EvTransportCleanup]
           | None => []
           end
        ++ match m_localProxy s with
           | Some _ => [EvLocalProxyDelete]
           | None => []
           end)).
Proof.
  unfold_run. destruct s as [[tr|] [lp|] si io c trc]; cbn;
    unfold set_m_localProxy, add_event; cbn;
    by rewrite <- ?app_assoc, ?app_nil_r.
Qed.

(** C6, as the code has it.  [Cleanup] always returns; it reverts the
    settings, then stops and cleans up the transport when one is attached,
    then deletes the local proxy when one was constructed, and calls
    nothing else.  After it the local-proxy handle is unset and the
    transport handle is as it was, set or not: both handles are unset
    after [Cleanup] exactly when no transport was attached before. *)
Theorem Cleanup_handles s :
  (Cleanup s).1 = Returned tt /\
  m_localProxy (Cleanup s).2 = None /\
  m_transport (Cleanup s).2 = m_transport s /\
  events_since s (Cleanup s).2 =
    [EvSettingsRevert]
    ++ match m_transport s with
       | Some _ => [EvTransportStop; EvTransportCleanup]
       | None => []
       end
    ++ match m_localProxy s with
       | Some _ => [EvLocalProxyDelete]
       | None => []
       end /\
  (m_transport (Cleanup s).2 = None /\ m_localProxy (Cleanup s).2 = None <->
   m_transport s = None).
Proof.
  rewrite Cleanup_run.
  cbn [fst snd m_transport m_localProxy]. split_and!; try done.
  - by apply events_since_app.
  - split; [by intros [? _] | done].
Qed.

(** ** WaitForDisconnect *)

(** C10. In [WaitForDisconnect], when the wait itself fails, [Stop] is
    still requested on the local proxy and on the transport and the whole
    of [Cleanup] runs; [IWorkerThread::Error] is thrown after that, with
    the local proxy released. *)
Theorem WaitForDisconnect_failed_wait_tears_down W s t lp :
  m_transport s = Some t ->
  m_localProxy s = Some lp ->
  (WAIT_OBJECT_0 + 2 - 1 < WaitForMultipleObjects W)%Z ->
  (WaitForDisconnect W s).1 =
    Raised (WorkerThreadError "WaitForMultipleObjects failed") /\
  events_since s (WaitForDisconnect W s).2 =
    [EvWaitForMultipleObjects; EvLocalProxyStop; EvTransportStop;
     EvSettingsRevert; EvTransportStop; EvTransportCleanup; EvLocalProxyDelete] /\
  m_localProxy (WaitForDisconnect W s).2 = None.
Proof.
  intros Ht Hlp Hwait. apply Z.ltb_lt in Hwait.
  destruct s as [mt mlp si io c trc]. cbn in Ht, Hlp. subst mt mlp.
  unfold events_since, WaitForDisconnect. unfold_run. rewrite Hwait. state_cbn.
  split_and!; try done.
  flatten_trace. by rewrite drop_app_length.
Qed.

(** Whatever the wait returns, an attached transport and local proxy are
    stopped first and the settings are reverted after that. *)
Lemma WaitForDisconnect_events W s t lp :
  m_transport s = Some t ->
  m_localProxy s = Some lp ->
  events_since s (WaitForDisconnect W s).2 =
    [EvWaitForMultipleObjects; EvLocalProxyStop; EvTransportStop;
     EvSettingsRevert; EvTransportStop; EvTransportCleanup; EvLocalProxyDelete].
Proof.
  intros Ht Hlp.
  destruct s as [mt mlp si io c trc]. cbn in Ht, Hlp. subst mt mlp.
  unfold events_since, WaitForDisconnect. unfold_run.
  destruct (WAIT_OBJECT_0 + 2 - 1 <? WaitForMultipleObjects W)%Z; state_cbn;
    flatten_trace; by rewrite drop_app_length.
Qed.

(** ** The handshake request path *)

Lemma string_app_assoc (a b c : string) : (a +:+ b) +:+ c = a +:+ (b +:+ c).
Proof.
  induction a as [|x a IH]; [done|].
  change (String x ((a +:+ b) +:+ c) = String x (a +:+ (b +:+ c))).
  by rewrite IH.
Qed.

Lemma string_app_empty_r (a : string) : a +:+ "" = a.
Proof.
  induction a as [|x a IH]; [done|].
  change (String x (a +:+ "") = String x a). by rewrite IH.
Qed.

(** The loop of lines 300-304 appends the components in list order. *)
Lemma known_servers_loop l : forall acc,
  foldl (fun path ii =>
           (path +:+ "&known_server=") +:+ NarrowToTString (serverAddress ii))
        acc l =
  acc +:+ foldr (fun e rest => "&known_server=" +:+ serverAddress e +:+ rest) "" l.
Proof.
  induction l as [|e l IH]; intros acc; cbn [foldl foldr].
  - by rewrite string_app_empty_r.
  - rewrite IH. unfold NarrowToTString. by rewrite !string_app_assoc.
Qed.

(** C8. For every session and every server-entry list handed to it,
    [GetHandshakeRequestPath] returns the fixed query
    [/handshake?client_session_id=..&propagation_channel_id=..&sponsor_id=..&client_version=..&server_secret=..&relay_protocol=..]
    followed by one [&known_server=<address>] component for each entry of
    the whole list, in list order; the object is not changed. *)
Theorem GetHandshakeRequestPath_spec W s t sessionInfo l :
  m_transport s = Some t ->
  GetHandshakeRequestPath W sessionInfo l s =
  (Returned (spec_HandshakeRequestPath W (GetTransportProtocolName t) sessionInfo l),
   s).
Proof.
  intros Ht. unfold GetHandshakeRequestPath, bind, deref, ret. rewrite Ht.
  rewrite known_servers_loop. unfold spec_HandshakeRequestPath, NarrowToTString.
  by rewrite !string_app_assoc.
Qed.

(** * Beyond the claims *)

(** ** Tactics for whole runs *)

(** As [state_cbn], [unfold_run] and [branch], on the goal alone. *)
Ltac goal_cbn :=
  cbn [fst snd m_transport m_localProxy m_sessionInfo io_serverEntries
       sessionInfoCandidates trace set_m_transport set_m_localProxy
       set_m_sessionInfo set_io_serverEntries set_sessionInfoCandidates
       add_event at_try negb andb orb map].

Ltac unfold_goal :=
  unfold Connect_try, Connect_catch, Cleanup, DoHandshake,
    GetHandshakeRequestPath, load_ref, store_ref, call, emit, at_int, at_index,
    front, deref, try_catch, bind, gets, modify, ret, throw, undefined;
  goal_cbn.

Ltac split_run :=
  match goal with
  | |- context [match ?x with _ => _ end] =>
      lazymatch x with
      | context [match _ with _ => _ end] => fail
      | _ => destruct x eqn:?
      end
  end;
  goal_cbn.

(** The events of a finished run, as a list. *)
Ltac events_list :=
  rewrite <- ?app_assoc; cbn [app]; rewrite ?drop_all, ?drop_app_length.
Ltac events := events_list; cbn.

(** Name the outcome and the final state of a run of [Connect], so that
    the run occurs once in the goal. *)
Ltac begin_run W t p d s o r :=
  let Hrun := fresh "Hrun" in
  destruct (Connect W t p d s) as [o r] eqn:Hrun; cbn [fst snd];
  unfold events_since; revert Hrun.
Ltac end_run := intros [= <- <-]; goal_cbn; events.

(** ** What Connect does with the list *)

(** [Connect] on a non-empty list: either the filter throws, or the [try]
    block starts on the usable entries. *)
Lemma Connect_run W t p d s first rest :
  io_serverEntries s = first :: rest ->
  Connect W t p d s =
  if IsHandshakeRequired t first && d
  then (Raised TryNextServer, set_io_serverEntries [first] s)
  else try_catch (Connect_try W p d) Connect_catch
         (at_try t (usable_entries t (first :: rest)) s).
Proof.
  intros Hs. unfold usable_entries.
  destruct (IsHandshakeRequired t first) eqn:Hfirst; cbn [andb].
  - pose proof (Connect_filter_handshake t d s first rest Hs Hfirst) as Hf.
    destruct d.
    + unfold Connect. unfold bind at 1. by rewrite Hf.
    + by apply Connect_after_filter.
  - apply Connect_after_filter. by apply (Connect_filter_free t d s first rest).
Qed.

Lemma usable_entries_free t first rest :
  IsHandshakeRequired t first = false ->
  usable_entries t (first :: rest) =
  take (GetMultiConnectCount t) (first :: handshake_free t rest).
Proof.
  intros Hfirst. unfold usable_entries, handshake_free. rewrite Hfirst.
  by rewrite filter_cons_True.
Qed.

(** The cases of a run, with what is known about the front of the list on
    which the [try] block starts. *)
Lemma Connect_cases_front W t p d s :
  Connect W t p d s = (Undefined, s) \/
  (exists first,
     d = true /\ IsHandshakeRequired t first = true /\
     Connect W t p d s = (Raised TryNextServer, set_io_serverEntries [first] s)) \/
  Connect W t p d s = try_catch (Connect_try W p d) Connect_catch (at_try t [] s) \/
  (exists first l',
     (IsHandshakeRequired t first = true -> d = false /\ l' = []) /\
     Connect W t p d s =
     try_catch (Connect_try W p d) Connect_catch (at_try t (first :: l') s)).
Proof.
  destruct (io_serverEntries s) as [|first rest] eqn:Hs.
  - left. by apply Connect_empty.
  - right. rewrite (Connect_run W t p d s first rest Hs).
    destruct (IsHandshakeRequired t first) eqn:Hfirst; cbn [andb].
    + destruct d.
      * left. by exists first.
      * right. right. exists first, []. unfold usable_entries. rewrite Hfirst.
        split; [done|done].
    + right. rewrite (usable_entries_free t first rest Hfirst).
      destruct (GetMultiConnectCount t) as [|n]; cbn [take].
      * by left.
      * right. eexists first, _. split; [|done]. intros Hc.
        rewrite Hfirst in Hc. done.
Qed.

(** X1. However [Connect] ends, it leaves the caller's vector equal to the
    usable entries of the vector it was given: the first entry alone when
    that entry needs a pre-handshake, otherwise the first
    [GetMultiConnectCount] entries among those that need none, in their
    order. *)
Theorem Connect_leaves_usable_entries W t p d s :
  io_serverEntries (Connect W t p d s).2 = usable_entries t (io_serverEntries s).
Proof.
  rewrite Connect_entries.
  destruct (io_serverEntries s) as [|first rest] eqn:Hs.
  - unfold Connect_filter, bind, gets, front. by rewrite Hs.
  - unfold usable_entries. destruct (IsHandshakeRequired t first) eqn:Hfirst.
    + by rewrite (Connect_filter_handshake t d s first rest).
    + by rewrite (Connect_filter_free t d s first rest).
Qed.

(** ** What Connect never does *)

(** X2. [Connect] never lets [ITransport::TransportFailed] out.  Once
    the filter has let the run into the [try] block, whatever exception
    leaves the block is followed by [Cleanup] and reaches the caller as the
    [catch] clauses pass it on: [TryNextServer] when it is
    [TransportFailed], the exception itself otherwise. *)
Theorem Connect_never_raises_TransportFailed W t p d s :
  (Connect W t p d s).1 <> Raised TransportFailed /\
  forall first rest e,
    io_serverEntries s = first :: rest ->
    IsHandshakeRequired t first && d = false ->
    let body := Connect_try W p d (at_try t (usable_entries t (first :: rest)) s) in
    body.1 = Raised e ->
    (Connect W t p d s).1 = Raised (rethrown e) /\
    (e = TransportFailed -> (Connect W t p d s).1 = Raised TryNextServer) /\
    (Connect W t p d s).2 = (Cleanup body.2).2.
Proof.
  split.
  - destruct (Connect_cases W t p d s) as [-> | [[first ->] | [l ->]]];
      [done..|].
    unfold_goal. repeat split_run; cbn [fst]; try done.
    all: intros ?; simplify_eq.
  - intros first rest e Hs Hgo. cbv zeta.
    rewrite (Connect_run W t p d s first rest Hs), Hgo.
    unfold try_catch.
    destruct (Connect_try W p d (at_try t (usable_entries t (first :: rest)) s))
      as [o s'].
    cbn [fst snd]. intros ->.
    assert (Connect_catch e s' = (Raised (rethrown e), (Cleanup s').2)) as ->.
    { unfold Connect_catch.
      destruct e; unfold bind; rewrite Cleanup_run; done. }
    cbn [fst snd]. split_and!; try done. by intros ->.
Qed.

(** X3. When the caller disallows handshakes, no run of [Connect] makes a
    handshake request, before or after the transport connects. *)
Theorem Connect_disallowed_makes_no_request W t p s :
  request_paths (events_since s (Connect W t p true s).2) = [].
Proof.
  begin_run W t p true s o r.
  destruct (Connect_cases_front W t p true s)
    as [-> | [(first & _ & _ & ->) | [-> | (first & l' & Hfront & ->)]]].
  - intros [= <- <-]. cbn. by rewrite drop_all.
  - intros [= <- <-]. cbn. by rewrite drop_all.
  - unfold_goal. repeat split_run; end_run; done.
  - destruct (IsHandshakeRequired t first) eqn:Hfirst;
      [by destruct Hfront as [? _]|].
    unfold_goal. repeat (split_run; try congruence); end_run; done.
Qed.

(** X4. No run of [Connect] makes more than one handshake request: a
    pre-connect handshake rules the post-connect one out. *)
Theorem Connect_at_most_one_handshake W t p d s :
  length (request_paths (events_since s (Connect W t p d s).2)) <= 1.
Proof.
  begin_run W t p d s o r.
  destruct (Connect_cases W t p d s) as [-> | [[first ->] | [l ->]]].
  - intros [= <- <-]. cbn. rewrite drop_all. cbn. lia.
  - intros [= <- <-]. cbn. rewrite drop_all. cbn. lia.
  - unfold_goal. repeat split_run; end_run; lia.
Qed.


(** ** The request path, as the loop builds it *)

Lemma request_path_eq W protocol si l :
  foldl (fun path ii =>
           (path +:+ "&known_server=") +:+ NarrowToTString (serverAddress ii))
    ((((((((((((HTTP_HANDSHAKE_REQUEST_PATH
      +:+ "?client_session_id=") +:+ NarrowToTString (GetClientSessionID si))
      +:+ "&propagation_channel_id=") +:+ NarrowToTString (PROPAGATION_CHANNEL_ID W))
      +:+ "&sponsor_id=") +:+ NarrowToTString (SPONSOR_ID W))
      +:+ "&client_version=") +:+ NarrowToTString (CLIENT_VERSION W))
      +:+ "&server_secret=") +:+ NarrowToTString (GetWebServerSecret si))
      +:+ "&relay_protocol=") +:+ protocol) l =
  spec_HandshakeRequestPath W protocol si l.
Proof.
  rewrite known_servers_loop. unfold spec_HandshakeRequestPath, NarrowToTString.
  by rewrite !string_app_assoc.
Qed.

(** The same, after the first turn of the loop. *)
Lemma request_path_cons W protocol si e l :
  foldl (fun path ii =>
           (path +:+ "&known_server=") +:+ NarrowToTString (serverAddress ii))
    ((((((((((((((HTTP_HANDSHAKE_REQUEST_PATH
      +:+ "?client_session_id=") +:+ NarrowToTString (GetClientSessionID si))
      +:+ "&propagation_channel_id=") +:+ NarrowToTString (PROPAGATION_CHANNEL_ID W))
      +:+ "&sponsor_id=") +:+ NarrowToTString (SPONSOR_ID W))
      +:+ "&client_version=") +:+ NarrowToTString (CLIENT_VERSION W))
      +:+ "&server_secret=") +:+ NarrowToTString (GetWebServerSecret si))
      +:+ "&relay_protocol=") +:+ protocol)
      +:+ "&known_server=") +:+ NarrowToTString (serverAddress e)) l =
  spec_HandshakeRequestPath W protocol si (e :: l).
Proof. exact (request_path_eq W protocol si (e :: l)). Qed.

(** ** What a run that returns has done *)

(** X6. When [Connect] returns, the transport it was given is attached,
    the local proxy has been constructed once, on the transport's parent
    port and the given split-tunnel file, and holds the session that
    [GetUpdatedSessionInfo] returns; the caller's vector is not empty; the
    settings were applied once; nothing was reverted, stopped or deleted;
    and the last two calls handed the session to the local proxy and to
    the transport. *)
Theorem Connect_success_contract W t p d s :
  (Connect W t p d s).1 = Returned tt ->
  let r := (Connect W t p d s).2 in
  m_transport r = Some t /\
  m_localProxy r =
    Some (mkLocalProxy (m_sessionInfo r) (GetLocalProxyParentPort t) p) /\
  io_serverEntries r <> [] /\
  count_events is_local_proxy_new (events_since s r) = 1 /\
  count_events is_apply (events_since s r) = 1 /\
  existsb is_revert (events_since s r) = false /\
  existsb is_stop_call (events_since s r) = false /\
  existsb is_local_proxy_delete (events_since s r) = false /\
  [EvLocalProxyUpdateSessionInfo (m_sessionInfo r);
   EvTransportUpdateSessionInfo (m_sessionInfo r)] `suffix_of` events_since s r /\
  GetUpdatedSessionInfo r = (Returned (m_sessionInfo r), r).
Proof.
  cbv zeta. begin_run W t p d s o r.
  destruct (Connect_cases W t p d s) as [-> | [[first ->] | [l ->]]];
    [by intros [= <- <-]..|].
  unfold_goal. repeat split_run; end_run; try done.
  all: intros _; split_and!; try done; close_suffix.
Qed.

(** X7. On a run that returns, the transport's connect was called once,
    and the session that [Connect] leaves in the object comes from the
    candidate at the index the transport has chosen.  Without a
    post-connect handshake it is that candidate.  With one, the single
    request was made for that candidate, on the path that lists the
    entries left in the caller's vector; if the request failed or its
    response was empty the session is still that candidate, and otherwise
    it is what parsing that very response made of the candidate. *)
Theorem Connect_session_is_winning_candidate W t p d s :
  (Connect W t p d s).1 = Returned tt ->
  exists c i chosen,
    connect_candidates (events_since s (Connect W t p d s).2) = [c] /\
    transport_Connect t c = Normal i /\
    (0 <= i)%Z /\
    c !! Z.to_nat i = Some chosen /\
    (existsb is_post_handshake (events_since s (Connect W t p d s).2) = false ->
     m_sessionInfo (Connect W t p d s).2 = chosen) /\
    (existsb is_post_handshake (events_since s (Connect W t p d s).2) = true ->
     exists path ok response,
       request_paths (events_since s (Connect W t p d s).2) = [path] /\
       path = spec_HandshakeRequestPath W (GetTransportProtocolName t) chosen
                (io_serverEntries (Connect W t p d s).2) /\
       MakeRequest W ONLY_IF_TRANSPORT chosen path = Normal (ok, response) /\
       ((ok = false \/ response = "") /\
        m_sessionInfo (Connect W t p d s).2 = chosen \/
        ok = true /\ response <> "" /\
        ParseHandshakeResponse chosen response =
          (true, m_sessionInfo (Connect W t p d s).2))).
Proof.
  begin_run W t p d s o r.
  destruct (Connect_cases W t p d s) as [-> | [[first ->] | [l ->]]];
    [by intros [= <- <-]..|].
  unfold_goal.
  repeat split_run; intros [= <- <-]; goal_cbn; try done.
  all: events_list;
    cbn [connect_candidates request_paths existsb is_post_handshake orb].
  all: intros _; eexists _, _, _; split_and!; try done;
    try match goal with
        | Hn : (_ <? 0)%Z = false |- _ => apply Z.ltb_ge in Hn; exact Hn
        end.
  all: intros _;
    match goal with
    | Hreq : MakeRequest _ ONLY_IF_TRANSPORT _ _ = Normal ?a |- _ =>
        destruct a as [ok response]; cbn [fst snd] in *;
        eexists _, ok, response;
        (split; [reflexivity|]);
        (split; [apply request_path_cons|]);
        (split; [exact Hreq|])
    end.
  all: match goal with
       | Hb : negb ?a || (String.length ?resp <=? 0) = true |- _ =>
           left; split; [|reflexivity];
           destruct a, resp; cbn in Hb;
           first [ by left | by right | discriminate Hb ]
       | Hb : negb ?a || (String.length ?resp <=? 0) = false |- _ =>
           right; destruct a, resp; cbn in Hb; try discriminate Hb;
           split_and!; [done|done|];
           match goal with
           | Hp : negb (ParseHandshakeResponse ?x ?y).1 = false |- _ =>
               destruct (ParseHandshakeResponse x y) as [[] ?]; cbn in *; done
           end
       end.
Qed.

(** ** What a run that fails has done *)

(** X8. A run of [Connect] that starts without a local proxy and ends in
    an exception ends without one: every local proxy constructed during
    the run has been deleted. *)
Theorem Connect_failure_releases_local_proxy W t p d s e :
  m_localProxy s = None ->
  (Connect W t p d s).1 = Raised e ->
  m_localProxy (Connect W t p d s).2 = None /\
  count_events is_local_proxy_new (events_since s (Connect W t p d s).2) =
  count_events is_local_proxy_delete (events_since s (Connect W t p d s).2).
Proof.
  intros Hlp. begin_run W t p d s o r.
  destruct (Connect_cases W t p d s) as [-> | [[first ->] | [l ->]]].
  - by intros [= <- <-].
  - intros [= <- <-]. cbn. by rewrite drop_all.
  - destruct s as [mt mlp si io c trc]. cbn in Hlp. subst mlp. unfold_goal.
    repeat split_run; end_run; done.
Qed.



(** X11. When the [try] block is reached with a non-empty split-tunnel
    path and [DeleteFile] fails with an error other than
    [ERROR_FILE_NOT_FOUND], [Connect] throws [std::exception] right away:
    the only calls made are the delete, the revert of the settings and the
    stop and cleanup of the transport. *)
Theorem Connect_delete_file_failure W t p d s first rest :
  io_serverEntries s = first :: rest ->
  IsHandshakeRequired t first && d = false ->
  m_localProxy s = None ->
  0 < String.length p ->
  DeleteFile W p = false ->
  GetLastError W <> ERROR_FILE_NOT_FOUND ->
  (Connect W t p d s).1 =
    Raised (StdException "TransportConnection::Connect - DeleteFile failed") /\
  events_since s (Connect W t p d s).2 =
    [EvDeleteFile p; EvSettingsRevert; EvTransportStop; EvTransportCleanup].
Proof.
  intros Hs Hgo Hlp Hp Hdel Herr.
  rewrite (Connect_run W t p d s first rest Hs), Hgo.
  apply Nat.ltb_lt in Hp. apply Z.eqb_neq in Herr.
  destruct s as [mt mlp si io c trc]. cbn in Hlp. subst mlp.
  unfold events_since. unfold_goal. rewrite Hp. goal_cbn. rewrite Hdel, Herr.
  goal_cbn. split; [done|]. events. done.
Qed.

(** ** What Connect hands to its collaborators *)

(** X12. Every handshake request that a run of [Connect] makes, before or
    after the transport connects, lists as known servers exactly the
    entries that [Connect] leaves in the caller's vector, that is the
    filtered entries and not the vector as the caller passed it. *)
Theorem Connect_requests_list_filtered_entries W t p d s :
  Forall
    (fun path =>
       exists si,
         path = spec_HandshakeRequestPath W (GetTransportProtocolName t) si
                  (io_serverEntries (Connect W t p d s).2))
    (request_paths (events_since s (Connect W t p d s).2)).
Proof.
  begin_run W t p d s o r.
  destruct (Connect_cases W t p d s) as [-> | [[first ->] | [l ->]]].
  - intros [= <- <-]. cbn. by rewrite drop_all.
  - intros [= <- <-]. cbn. by rewrite drop_all.
  - unfold_goal.
    repeat split_run; intros [= <- <-]; goal_cbn; events_list;
      cbn [request_paths];
      repeat first [ apply Forall_nil_2 | apply Forall_cons_2 ].
    all: eexists; apply request_path_cons.
Qed.

(** X13. A run of [Connect] calls the transport's connect at most once,
    with one candidate per entry left in the caller's vector; unless a
    pre-connect handshake has been made, each candidate is the session
    freshly set from its entry, in the order of the entries. *)
Theorem Connect_hands_transport_one_candidate_per_entry W t p d s :
  length (connect_candidates (events_since s (Connect W t p d s).2)) <= 1 /\
  Forall
    (fun c =>
       length c = length (io_serverEntries (Connect W t p d s).2) /\
       (request_paths (events_since s (Connect W t p d s).2) = [] \/
        existsb is_post_handshake (events_since s (Connect W t p d s).2) = true ->
        c = map (SessionInfo_Set SessionInfo_default)
              (io_serverEntries (Connect W t p d s).2)))
    (connect_candidates (events_since s (Connect W t p d s).2)).
Proof.
  begin_run W t p d s o r.
  destruct (Connect_cases W t p d s) as [-> | [[first ->] | [l ->]]].
  - intros [= <- <-]. cbn. rewrite drop_all. cbn. split; [lia|done].
  - intros [= <- <-]. cbn. rewrite drop_all. cbn. split; [lia|done].
  - unfold_goal.
    repeat split_run; intros [= <- <-]; goal_cbn; events_list;
      cbn [request_paths connect_candidates existsb is_post_handshake orb length];
      (split; [cbn; lia|]);
      repeat first [ apply Forall_nil_2 | apply Forall_cons_2 ].
    all: (split; [cbn [length]; by rewrite ?length_map|]).
    all: first [ intros _; reflexivity | intros [?|?]; discriminate ].
Qed.

(** ** When Connect stays within defined behaviour *)

(** X14. On a non-empty list, with a transport that connects at least one
    candidate at a time (or a first entry that needs a pre-handshake) and
    that reports an index inside the candidate vector it was handed,
    [Connect] never reads outside a vector and never dereferences a null
    handle: it returns or throws. *)
Theorem Connect_stays_defined W t p d s first rest :
  io_serverEntries s = first :: rest ->
  IsHandshakeRequired t first = true \/ 0 < GetMultiConnectCount t ->
  (forall c i, c <> [] -> transport_Connect t c = Normal i ->
               (0 <= i < Z.of_nat (length c))%Z) ->
  (Connect W t p d s).1 <> Undefined.
Proof.
  intros Hs Hcount Hindex.
  rewrite (Connect_run W t p d s first rest Hs).
  destruct (IsHandshakeRequired t first && d) eqn:Hgo; [done|].
  assert (exists l', usable_entries t (first :: rest) = first :: l') as [l' ->].
  { destruct (IsHandshakeRequired t first) eqn:Hfirst.
    - exists []. unfold usable_entries. by rewrite Hfirst.
    - rewrite (usable_entries_free t first rest Hfirst).
      destruct Hcount as [|Hcount]; [done|].
      destruct (GetMultiConnectCount t); [lia|]. by eexists. }
  unfold_goal.
  repeat split_run; cbn [fst]; try done.
  all: exfalso;
    match goal with
    | Hc : transport_Connect _ _ = Normal _ |- _ => apply Hindex in Hc; [|done]
    end.
  all: try match goal with
           | Hn : (_ <? 0)%Z = true |- _ => apply Z.ltb_lt in Hn; lia
           end.
  all: match goal with
       | Hl : _ !! _ = None |- _ => apply lookup_ge_None in Hl; lia
       end.
Qed.

(** ** DoHandshake on its own *)

(** X15. When [DoHandshake] returns, it has made exactly one request, at
    level [FULL] before the transport is up and [ONLY_IF_TRANSPORT] after.
    If it returns [true], the request succeeded with a non-empty response,
    the response parsed, and the referenced session is the parsed one.  If
    it returns [false], the request failed or the response was empty, and
    the referenced session is as it was. *)
Theorem DoHandshake_result W pre ref l s b :
  (DoHandshake W pre ref l s).1 = Returned b ->
  exists si path ok response,
    referenced ref s = Some si /\
    MakeRequest W (level_of pre) si path = Normal (ok, response) /\
    events_since s (DoHandshake W pre ref l s).2 = [EvMakeRequest (level_of pre) path] /\
    if b
    then ok = true /\ response <> "" /\
         exists si', ParseHandshakeResponse si response = (true, si') /\
                     referenced ref (DoHandshake W pre ref l s).2 = Some si'
    else (ok = false \/ response = "") /\
         referenced ref (DoHandshake W pre ref l s).2 = Some si.
Proof.
  destruct (DoHandshake W pre ref l s) as [o r] eqn:Hrun. cbn [fst snd].
  unfold events_since. revert Hrun. unfold level_of.
  destruct s as [mt mlp msi io c trc].
  unfold_goal. destruct ref; cbn [referenced sessionInfoCandidates m_sessionInfo].
  all: repeat split_run; intros [= <- <-]; try done; intros _.
  all: goal_cbn; events_list; cbn [head].
  all: match goal with
       | Hreq : MakeRequest _ _ _ _ = Normal ?a |- _ => destruct a as [ok response]
       end; cbn [fst snd] in *.
  all: eexists _, _, ok, response; split_and!; try done.
  all: try match goal with
           | Hp : negb (ParseHandshakeResponse ?x ?y).1 = false
             |- exists _, _ =>
               destruct (ParseHandshakeResponse x y) as [[] si'];
               cbn in *; [by eexists | done]
           end.
  all: match goal with
       | Hb : negb ?a || (String.length ?resp <=? 0) = _ |- _ =>
           destruct a, resp; cbn in Hb; try discriminate Hb
       end.
  all: first [ done | by left | by right ].
Qed.

(** ** Teardown *)

(** X16. A second [Cleanup] right after a first one (the destructor after
    a failed [Connect] or after [WaitForDisconnect]) returns and leaves the
    members as the first left them; it does not delete the local proxy
    again, but it reverts the settings again and, when a transport is
    attached, stops and cleans it up again. *)
Theorem Cleanup_twice s :
  let s1 := (Cleanup s).2 in
  let s2 := (Cleanup s1).2 in
  (Cleanup s1).1 = Returned tt /\
  m_transport s2 = m_transport s /\
  m_localProxy s2 = None /\
  m_sessionInfo s2 = m_sessionInfo s /\
  io_serverEntries s2 = io_serverEntries s /\
  existsb is_local_proxy_delete (events_since s1 s2) = false /\
  events_since s1 s2 =
    EvSettingsRevert ::
    match m_transport s with
    | Some _ => [EvTransportStop; EvTransportCleanup]
    | None => []
    end.
Proof.
  cbv zeta. rewrite (Cleanup_run s). cbn [snd]. rewrite Cleanup_run.
  unfold events_since.
  cbn [fst snd m_transport m_localProxy m_sessionInfo io_serverEntries trace].
  rewrite drop_app_length, app_nil_r.
  by destruct (m_transport s).
Qed.

(** X17. On an object with a transport and a local proxy attached,
    [WaitForDisconnect] returns when the wait reports one of the two
    handles (a result of at most [WAIT_OBJECT_0 + 1]) and throws
    [IWorkerThread::Error] for every other result; either way the local
    proxy handle is unset afterwards, the transport handle is still set,
    and the session and the caller's vector are untouched. *)
Theorem WaitForDisconnect_outcome W s t lp :
  m_transport s = Some t ->
  m_localProxy s = Some lp ->
  (WaitForDisconnect W s).1 =
    (if (WaitForMultipleObjects W <=? 1)%Z
     then Returned tt
     else Raised (WorkerThreadError "WaitForMultipleObjects failed")) /\
  m_transport (WaitForDisconnect W s).2 = Some t /\
  m_localProxy (WaitForDisconnect W s).2 = None /\
  m_sessionInfo (WaitForDisconnect W s).2 = m_sessionInfo s /\
  io_serverEntries (WaitForDisconnect W s).2 = io_serverEntries s.
Proof.
  intros Ht Hlp.
  destruct s as [mt mlp si io c trc]. cbn in Ht, Hlp. subst mt mlp.
  unfold WaitForDisconnect, WAIT_OBJECT_0. unfold_goal.
  rewrite (Z.leb_antisym 1 (WaitForMultipleObjects W)).
  change (0 + 2 - 1)%Z with 1%Z.
  by destruct (1 <? WaitForMultipleObjects W)%Z.
Qed.

Lemma Connect_returned_handles W t p d s :
  (Connect W t p d s).1 = Returned tt ->
  m_transport (Connect W t p d s).2 = Some t /\
  is_Some (m_localProxy (Connect W t p d s).2).
Proof.
  begin_run W t p d s o r.
  destruct (Connect_cases W t p d s) as [-> | [[first ->] | [l ->]]];
    [by intros [= <- <-]..|].
  unfold_goal. repeat split_run; intros [= <- <-]; goal_cbn; try done.
Qed.

(** X18. After a [Connect] that has returned, [WaitForDisconnect] finds
    both handles set: it stops the local proxy and the transport, cleans
    up, and returns or throws; the destructor that follows reverts the
    settings and stops and cleans up the transport once more, and does not
    delete the local proxy a second time. *)
Theorem Connect_then_WaitForDisconnect W t p d s :
  (Connect W t p d s).1 = Returned tt ->
  let r := (Connect W t p d s).2 in
  let r' := (WaitForDisconnect W r).2 in
  (WaitForDisconnect W r).1 <> Undefined /\
  events_since r r' =
    [EvWaitForMultipleObjects; EvLocalProxyStop; EvTransportStop;
     EvSettingsRevert; EvTransportStop; EvTransportCleanup; EvLocalProxyDelete] /\
  m_localProxy r' = None /\
  (TransportConnection_delete r').1 = Returned tt /\
  events_since r' (TransportConnection_delete r').2 =
    [EvSettingsRevert; EvTransportStop; EvTransportCleanup].
Proof.
  intros Hret. cbv zeta.
  destruct (Connect_returned_handles W t p d s Hret) as [Ht [lp Hlp]].
  rewrite (WaitForDisconnect_events W _ t lp Ht Hlp).
  remember (Connect W t p d s).2 as r eqn:Hr. clear Hr Hret.
  destruct r as [mt mlp si io c trc]. cbn in Ht, Hlp. subst mt mlp.
  unfold TransportConnection_delete. rewrite Cleanup_run.
  unfold WaitForDisconnect. unfold_goal. unfold events_since.
  destruct (WAIT_OBJECT_0 + 2 - 1 <? WaitForMultipleObjects W)%Z; goal_cbn.
  all: split_and!; try done.
  all: by rewrite drop_app_length.
Qed.

(** ** The post-connect handshake, both ways of failing *)





End Properties.

(** * The claims on concrete runs *)

Import Demo.

(** C4, on three candidates of which the first needs a pre-handshake. *)
Lemma Connect_prehandshake_truncates_to_first_witness :
  io_serverEntries (Connect_filter ssh_transport false vpn_first).2 = [vpn1] /\
  io_serverEntries (Connect fine_world ssh_transport "" false vpn_first).2 = [vpn1].
Proof.
  apply (Connect_prehandshake_truncates_to_first
           fine_world ssh_transport "" false vpn_first vpn1 [ssh1; vpn2]);
    reflexivity.
Defined.

(** C5, on four candidates with a multi-connect count of two. *)
Lemma Connect_multi_connect_filter_witness :
  let filtered := io_serverEntries (Connect_filter ssh_transport false ssh_first).2 in
  (Connect_filter ssh_transport false ssh_first).1 = Returned tt /\
  Forall (fun e => needs_handshake e = false) filtered /\
  length filtered <= 2 /\
  filtered `sublist_of` [ssh1; vpn1; ssh2; ssh3] /\
  io_serverEntries (Connect fine_world ssh_transport "" false ssh_first).2 = filtered.
Proof.
  apply (Connect_multi_connect_filter
           fine_world ssh_transport "" false ssh_first ssh1 [vpn1; ssh2; ssh3]);
    reflexivity.
Defined.

(** C9, on three candidates of which the first needs a pre-handshake. *)
Lemma Connect_disallowed_handshake_no_rollback_witness :
  (Connect fine_world ssh_transport "" true vpn_first).1 = Raised TryNextServer /\
  io_serverEntries (Connect fine_world ssh_transport "" true vpn_first).2 = [vpn1] /\
  events_since vpn_first (Connect fine_world ssh_transport "" true vpn_first).2 = [] /\
  m_transport (Connect fine_world ssh_transport "" true vpn_first).2 = None /\
  m_localProxy (Connect fine_world ssh_transport "" true vpn_first).2 = None.
Proof.
  apply (Connect_disallowed_handshake_no_rollback
           fine_world ssh_transport "" vpn_first vpn1 [ssh1; vpn2]);
    reflexivity.
Defined.



(** C3, on a transport whose multi-connect count is zero. *)
Lemma Connect_filter_empty_iff_witness :
  let t := transport 0 (Normal 0%Z) in
  (io_serverEntries (Connect_filter t false ssh_first).2 = [] <->
   needs_handshake ssh1 = false /\ 0 = 0) /\
  (io_serverEntries (Connect_filter t false ssh_first).2 = [] ->
   existsb is_transport_connect
     (events_since ssh_first (Connect fine_world t "" false ssh_first).2) = false /\
   ((Connect fine_world t "" false ssh_first).1 = Undefined \/
    (Connect fine_world t "" false ssh_first).1 =
      Raised (StdException "TransportConnection::Connect - DeleteFile failed"))).
Proof.
  apply (Connect_filter_empty_iff
           fine_world (transport 0 (Normal 0%Z)) "" false ssh_first
           ssh1 [vpn1; ssh2; ssh3]).
  reflexivity.
Defined.

(** C3 as it is stated fails: with a multi-connect count of zero the
    filter leaves nothing, and [Connect] signals no error at all. *)
Lemma Connect_empty_filter_signals_nothing :
  let t := transport 0 (Normal 0%Z) in
  io_serverEntries (Connect_filter t false ssh_first).2 = [] /\
  (Connect fine_world t "" false ssh_first).1 = Undefined /\
  forall e, (Connect fine_world t "" false ssh_first).1 <> Raised e.
Proof. vm_compute. split_and!; done. Qed.

(** C6 as it is stated fails: after [Cleanup] on a connected object the
    transport handle is still set. *)
Lemma Cleanup_keeps_transport_handle :
  ~ (m_transport (Cleanup connected).2 = None /\
     m_localProxy (Cleanup connected).2 = None).
Proof. intros [Ht _]. vm_compute in Ht. discriminate. Qed.


(** C8, on the session and the list of a connected object. *)
Lemma GetHandshakeRequestPath_spec_witness :
  GetHandshakeRequestPath fine_world (m_sessionInfo connected)
    (io_serverEntries connected) connected =
  (Returned
     "/handshake?client_session_id=C0FFEE&propagation_channel_id=CHANNEL&sponsor_id=SPONSOR&client_version=42&server_secret=secret2&relay_protocol=SSH&known_server=192.0.2.1&known_server=192.0.2.2",
   connected).
Proof.
  exact (GetHandshakeRequestPath_spec fine_world connected ssh_transport
           (m_sessionInfo connected) (io_serverEntries connected) eq_refl).
Defined.

(** C10, on a connected object whose wait returns [WAIT_FAILED]. *)
Lemma WaitForDisconnect_failed_wait_tears_down_witness :
  (WaitForDisconnect wait_failed_world connected).1 =
    Raised (WorkerThreadError "WaitForMultipleObjects failed") /\
  events_since connected (WaitForDisconnect wait_failed_world connected).2 =
    [EvWaitForMultipleObjects; EvLocalProxyStop; EvTransportStop;
     EvSettingsRevert; EvTransportStop; EvTransportCleanup; EvLocalProxyDelete] /\
  m_localProxy (WaitForDisconnect wait_failed_world connected).2 = None.
Proof.
  refine (WaitForDisconnect_failed_wait_tears_down
            wait_failed_world connected ssh_transport
            (mkLocalProxy (m_sessionInfo connected) 1080%Z "") _ _ _);
    reflexivity.
Defined.

(** C2.  [WaitForDisconnect] on a connected object: the wait returns
    because the transport has stopped; [Stop] is then requested on the
    local proxy and on the transport, and only [Cleanup], which runs
    after both, reverts the system proxy settings.  The ordering that
    [Cleanup] documents as important and that every exit of [Connect]
    keeps (see [Connect_revert_precedes_stops]) is not kept here. *)
Theorem WaitForDisconnect_stops_before_revert :
  (Connect fine_world ssh_transport "" false ssh_first).1 = Returned tt /\
  (WaitForDisconnect fine_world connected).1 = Returned tt /\
  events_since connected (WaitForDisconnect fine_world connected).2 =
    [EvWaitForMultipleObjects; EvLocalProxyStop; EvTransportStop;
     EvSettingsRevert; EvTransportStop; EvTransportCleanup; EvLocalProxyDelete] /\
  revert_precedes_stops
    (events_since connected (WaitForDisconnect fine_world connected).2) = false.
Proof. vm_compute. split_and!; done. Qed.

(** * The further properties on concrete runs *)

(** X6, on a run in which everything works. *)
Lemma Connect_success_contract_witness :
  let r := (Connect fine_world ssh_transport "" false ssh_first).2 in
  m_transport r = Some ssh_transport /\
  m_localProxy r = Some (mkLocalProxy (m_sessionInfo r) 1080%Z "") /\
  io_serverEntries r <> [] /\
  count_events is_local_proxy_new (events_since ssh_first r) = 1 /\
  count_events is_apply (events_since ssh_first r) = 1 /\
  existsb is_revert (events_since ssh_first r) = false /\
  existsb is_stop_call (events_since ssh_first r) = false /\
  existsb is_local_proxy_delete (events_since ssh_first r) = false /\
  [EvLocalProxyUpdateSessionInfo (m_sessionInfo r);
   EvTransportUpdateSessionInfo (m_sessionInfo r)]
    `suffix_of` events_since ssh_first r /\
  GetUpdatedSessionInfo r = (Returned (m_sessionInfo r), r).
Proof.
  apply (Connect_success_contract fine_world ssh_transport "" false ssh_first).
  reflexivity.
Defined.

(** X7, on the same run: the transport chooses the second candidate and
    the post-connect handshake is made for it. *)
Lemma Connect_session_is_winning_candidate_witness :
  let r := (Connect fine_world ssh_transport "" false ssh_first).2 in
  exists c i chosen,
    connect_candidates (events_since ssh_first r) = [c] /\
    transport_Connect ssh_transport c = Normal i /\
    (0 <= i)%Z /\
    c !! Z.to_nat i = Some chosen /\
    (existsb is_post_handshake (events_since ssh_first r) = false ->
     m_sessionInfo r = chosen) /\
    (existsb is_post_handshake (events_since ssh_first r) = true ->
     exists path ok response,
       request_paths (events_since ssh_first r) = [path] /\
       path = spec_HandshakeRequestPath fine_world "SSH" chosen (io_serverEntries r) /\
       MakeRequest fine_world ONLY_IF_TRANSPORT chosen path = Normal (ok, response) /\
       ((ok = false \/ response = "") /\ m_sessionInfo r = chosen \/
        ok = true /\ response <> "" /\
        ParseHandshakeResponse chosen response = (true, m_sessionInfo r))).
Proof.
  apply (Connect_session_is_winning_candidate
           fine_world ssh_transport "" false ssh_first).
  reflexivity.
Defined.

(** X2, on a transport whose connect throws [TransportFailed]. *)
Lemma Connect_never_raises_TransportFailed_witness :
  let t := transport 2 (Throws TransportFailed) in
  let body := Connect_try fine_world "" false
                (at_try t (usable_entries t [ssh1; vpn1; ssh2; ssh3]) ssh_first) in
  (Connect fine_world t "" false ssh_first).1 = Raised TryNextServer /\
  (TransportFailed = TransportFailed ->
   (Connect fine_world t "" false ssh_first).1 = Raised TryNextServer) /\
  (Connect fine_world t "" false ssh_first).2 = (Cleanup body.2).2.
Proof.
  apply (proj2 (Connect_never_raises_TransportFailed
                  fine_world (transport 2 (Throws TransportFailed)) "" false
                  ssh_first)
           ssh1 [vpn1; ssh2; ssh3] TransportFailed);
    reflexivity.
Defined.

(** X8, on a run that fails in the post-connect handshake. *)
Lemma Connect_failure_releases_local_proxy_witness :
  let W := world malformed_response (Normal true) 0%Z in
  let r := (Connect W ssh_transport "" false ssh_first).2 in
  m_localProxy r = None /\
  count_events is_local_proxy_new (events_since ssh_first r) =
  count_events is_local_proxy_delete (events_since ssh_first r).
Proof.
  apply (Connect_failure_releases_local_proxy
           (world malformed_response (Normal true) 0%Z) ssh_transport "" false
           ssh_first TryNextServer);
    reflexivity.
Defined.



(** X11, on a leftover file that cannot be deleted (access denied). *)
Lemma Connect_delete_file_failure_witness :
  let W := mkWorld (fun _ => false) 5%Z (fun _ _ _ => good_response)
             (fun _ => Normal true) 0%Z "CHANNEL" "SPONSOR" "42" in
  (Connect W ssh_transport "rules.txt" false ssh_first).1 =
    Raised (StdException "TransportConnection::Connect - DeleteFile failed") /\
  events_since ssh_first (Connect W ssh_transport "rules.txt" false ssh_first).2 =
    [EvDeleteFile "rules.txt"; EvSettingsRevert; EvTransportStop;
     EvTransportCleanup].
Proof.
  apply (Connect_delete_file_failure
           (mkWorld (fun _ => false) 5%Z (fun _ _ _ => good_response)
              (fun _ => Normal true) 0%Z "CHANNEL" "SPONSOR" "42")
           ssh_transport "rules.txt" false ssh_first ssh1 [vpn1; ssh2; ssh3]).
  - reflexivity.
  - reflexivity.
  - reflexivity.
  - vm_compute. lia.
  - reflexivity.
  - vm_compute. discriminate.
Defined.

(** X14, on a transport that always chooses the first candidate. *)
Lemma Connect_stays_defined_witness :
  (Connect fine_world (transport 2 (Normal 0%Z)) "" false ssh_first).1 <> Undefined.
Proof.
  apply (Connect_stays_defined
           fine_world (transport 2 (Normal 0%Z)) "" false ssh_first
           ssh1 [vpn1; ssh2; ssh3]).
  - reflexivity.
  - right. vm_compute. lia.
  - intros c i Hc Hi. injection Hi as <-.
    destruct c; [done|]. simpl. lia.
Defined.

(** X15, on the post-connect handshake of a connected object. *)
Lemma DoHandshake_result_witness :
  let r := DoHandshake fine_world false ref_m_sessionInfo
             (io_serverEntries connected) connected in
  exists si path ok response,
    referenced ref_m_sessionInfo connected = Some si /\
    MakeRequest fine_world ONLY_IF_TRANSPORT si path = Normal (ok, response) /\
    events_since connected r.2 = [EvMakeRequest ONLY_IF_TRANSPORT path] /\
    ok = true /\ response <> "" /\
    exists si', ParseHandshakeResponse si response = (true, si') /\
                referenced ref_m_sessionInfo r.2 = Some si'.
Proof.
  apply (DoHandshake_result fine_world false ref_m_sessionInfo
           (io_serverEntries connected) connected true).
  reflexivity.
Defined.

(** X17, on a connected object and a wait that reports the transport. *)
Lemma WaitForDisconnect_outcome_witness :
  (WaitForDisconnect fine_world connected).1 = Returned tt /\
  m_transport (WaitForDisconnect fine_world connected).2 = Some ssh_transport /\
  m_localProxy (WaitForDisconnect fine_world connected).2 = None /\
  m_sessionInfo (WaitForDisconnect fine_world connected).2 = m_sessionInfo connected /\
  io_serverEntries (WaitForDisconnect fine_world connected).2 =
    io_serverEntries connected.
Proof.
  refine (WaitForDisconnect_outcome fine_world connected ssh_transport
            (mkLocalProxy (m_sessionInfo connected) 1080%Z "") _ _);
    reflexivity.
Defined.

(** X18, on the whole life of an object: connect, wait, destroy. *)
Lemma Connect_then_WaitForDisconnect_witness :
  let r := (Connect fine_world ssh_transport "" false ssh_first).2 in
  let r' := (WaitForDisconnect fine_world r).2 in
  (WaitForDisconnect fine_world r).1 <> Undefined /\
  events_since r r' =
    [EvWaitForMultipleObjects; EvLocalProxyStop; EvTransportStop;
     EvSettingsRevert; EvTransportStop; EvTransportCleanup; EvLocalProxyDelete] /\
  m_localProxy r' = None /\
  (TransportConnection_delete r').1 = Returned tt /\
  events_since r' (TransportConnection_delete r').2 =
    [EvSettingsRevert; EvTransportStop; EvTransportCleanup].
Proof.
  apply (Connect_then_WaitForDisconnect fine_world ssh_transport "" false ssh_first).
  reflexivity.
Defined.
